(** * InMemoryDB: a key-value store with one single-level transaction

    Shallow embedding of the class [InMemoryDB] of [src/InMemoryDB.py] and
    of [src/in_memory_db.py].  The two files hold the same class, method for
    method, except for [commit]: the first installs the staged dictionary
    itself as the committed one, the second installs a copy of it.

    Python dictionaries are mutable objects reached through references, so
    the embedding keeps an object store (a list of dictionaries indexed by
    location) and the two fields of the instance hold locations.

    The methods build f-strings for their exception messages and for the
    lines they print.  Formatting a value can raise, so each method keeps
    its f-strings at the place the source has them; the text of exception
    messages is not recorded in the exception.  The lines printed are
    recorded by the second embedding, [Logged].  Standard output is taken
    to accept every line (the stream is open and can encode the keys). *)

From stdpp Require Import gmap strings list pretty.

(** ** Python values and exceptions *)

(** The fragment of Python objects a caller may hand to [put]. *)
Inductive pyval : Type :=
  | PyNone
  | PyBool (b : bool)
  | PyInt (z : Z)
  | PyStr (s : string).

(** [isinstance(value, int)]: [bool] is a subclass of [int]. *)
Definition isinstance_int (value : pyval) : bool :=
  match value with
  | PyInt _ | PyBool _ => true
  | PyNone | PyStr _ => false
  end.

(** The exception classes the methods raise (messages left out).
    [Exception] is the plain [Exception("Another transaction is already in
    progress.")] of [begin_transaction].  [ValueError] is raised by [put]
    for a value that is not an integer, and by the interpreter when an
    integer is too long to be converted to text. *)
Inductive exn : Type :=
  | Exception
  | ValueError
  | NoTransactionError.

(** ** Converting a value to text

    CPython limits the conversion of an [int] to decimal text: [str(n)],
    and so an f-string field [{n}], raises [ValueError] when [n] has more
    than [sys.get_int_max_str_digits()] digits, the sign not counted.  The
    limit is 4300 unless the interpreter is configured otherwise (CPython
    3.11, and the security releases of 3.7 to 3.10). *)
Definition int_max_str_digits : Z := 4300.

(** [n] has at most [int_max_str_digits] decimal digits. *)
Definition str_int_ok (n : Z) : bool :=
  (Z.abs n <? 10 ^ int_max_str_digits)%Z.

(** [10**4300], the least integer in absolute value that is too long. *)
Definition huge : Z := (10 ^ int_max_str_digits)%Z.

(** Whether [str(value)] returns. *)
Definition formattable (value : pyval) : bool :=
  match value with
  | PyInt n => str_int_ok n
  | PyNone | PyBool _ | PyStr _ => true
  end.

(** The text [str(value)] returns, when it returns. *)
Definition py_text (value : pyval) : string :=
  match value with
  | PyNone => "None"
  | PyBool true => "True"
  | PyBool false => "False"
  | PyInt n => pretty n
  | PyStr s => s
  end.

(** [str(value)], as an f-string field [{value}] calls it. *)
Definition py_str (value : pyval) : exn + string :=
  if formattable value then inr (py_text value) else inl ValueError.

(** ** The object store and the instance *)

Abbreviation dict := (gmap string pyval).
Abbreviation loc := nat (only parsing).

Record InMemoryDB : Type := mkDB {
  heap : list dict;               (* the dictionaries allocated so far *)
  main_state : loc;               (* self.main_state *)
  transaction_state : option loc  (* self.transaction_state, None = None *)
}.

(** The dictionary a reference points to.  References held by an instance
    always point into the store (see [wf]); the default is never read on a
    well-formed instance. *)
Definition deref (h : list dict) (l : loc) : dict := default ∅ (h !! l).

(** [InMemoryDB()]: one empty dictionary, no transaction. *)
Definition init : InMemoryDB :=
  {| heap := [∅]; main_state := 0; transaction_state := None |}.

(** ** A state-and-exception monad for method bodies *)

Definition M (A : Type) : Type := InMemoryDB → (exn + A) * InMemoryDB.

Definition ret {A} (a : A) : M A := λ db, (inr a, db).

Definition raise {A} (e : exn) : M A := λ db, (inl e, db).

Definition bind {A B} (m : M A) (k : A → M B) : M B := λ db,
  match m db with
  | (inl e, db') => (inl e, db')
  | (inr a, db') => k a db'
  end.

Notation "x <- m ;; k" := (bind m (λ x, k))
  (at level 100, m at next level, right associativity).
Notation "m ;;; k" := (bind m (λ _, k))
  (at level 100, right associativity).

(** Field reads and writes. *)
Definition get_main_state : M loc := λ db, (inr (main_state db), db).

Definition get_transaction_state : M (option loc) :=
  λ db, (inr (transaction_state db), db).

Definition set_main_state (l : loc) : M unit := λ db,
  (inr (), {| heap := heap db; main_state := l;
              transaction_state := transaction_state db |}).

Definition set_transaction_state (t : option loc) : M unit := λ db,
  (inr (), {| heap := heap db; main_state := main_state db;
              transaction_state := t |}).

(** [d.copy()]: a new dictionary with the same items, at a fresh location. *)
Definition dict_copy (l : loc) : M loc := λ db,
  (inr (length (heap db)),
   {| heap := heap db ++ [deref (heap db) l]; main_state := main_state db;
      transaction_state := transaction_state db |}).

(** [d[key] = value]: in-place update of the object at [l].  A location
    outside the store (never held by a well-formed instance) leaves the
    store as it is. *)
Definition dict_setitem (l : loc) (key : string) (value : pyval) : M unit :=
  λ db,
  (inr (),
   {| heap := <[l := <[key := value]> (deref (heap db) l)]> (heap db);
      main_state := main_state db;
      transaction_state := transaction_state db |}).

(** [d.get(key)]: the value, or [None] when the key is missing. *)
Definition dict_get (l : loc) (key : string) : M pyval := λ db,
  (inr (default PyNone (deref (heap db) l !! key)), db).

(** An f-string field [{value}]: the text, or the exception of [str]. *)
Definition format_field (value : pyval) : M string := λ db,
  (py_str value, db).

(** [f"Cannot put('{key}', {value}). A transaction is not in progress."] *)
Definition put_message (key : string) (value : pyval) : M string :=
  v <- format_field value ;;
  ret ("Cannot put('" +:+ key +:+ "', " +:+ v
       +:+ "). A transaction is not in progress.").

(** [f"Set '{key}' to {value} (uncommitted)"] *)
Definition put_line (key : string) (value : pyval) : M string :=
  v <- format_field value ;;
  ret ("Set '" +:+ key +:+ "' to " +:+ v +:+ " (uncommitted)").

(** [f"Get '{key}': None (not found in {source} state)"] *)
Definition get_none_line (key source : string) : string :=
  "Get '" +:+ key +:+ "': None (not found in " +:+ source +:+ " state)".

(** [f"Get '{key}': {result} (from {source} state)"] *)
Definition get_line (key : string) (result : pyval) (source : string)
  : M string :=
  v <- format_field result ;;
  ret ("Get '" +:+ key +:+ "': " +:+ v +:+ " (from " +:+ source
       +:+ " state)").

(** ** The methods *)

Definition begin_transaction : M pyval :=
  ts <- get_transaction_state ;;
  match ts with
  | Some _ => raise Exception
  | None =>
      m <- get_main_state ;;
      c <- dict_copy m ;;
      set_transaction_state (Some c) ;;;
      ret PyNone
  end.

(** The message of [NoTransactionError] is formatted before the exception
    is raised; the line [put] prints is formatted after the assignment. *)
Definition put (key : string) (value : pyval) : M pyval :=
  if negb (isinstance_int value) then raise ValueError
  else
    ts <- get_transaction_state ;;
    match ts with
    | None =>
        put_message key value ;;;
        raise NoTransactionError
    | Some t =>
        dict_setitem t key value ;;;
        put_line key value ;;;
        ret PyNone
    end.

Definition get (key : string) : M pyval :=
  ts <- get_transaction_state ;;
  rs <- match ts with
        | Some t =>
            result <- dict_get t key ;;
            ret (result, "transaction"%string)
        | None =>
            m <- get_main_state ;;
            result <- dict_get m key ;;
            ret (result, "main"%string)
        end ;;
  let '(result, source) := rs in
  match result with
  | PyNone => ret PyNone
  | _ =>
      get_line key result source ;;;
      ret result
  end.

(** [commit] of [src/InMemoryDB.py]: the staged dictionary becomes the
    committed one. *)
Module Direct.
Definition commit : M pyval :=
  ts <- get_transaction_state ;;
  match ts with
  | None => raise NoTransactionError
  | Some t =>
      set_main_state t ;;;
      set_transaction_state None ;;;
      ret PyNone
  end.
End Direct.

(** [commit] of [src/in_memory_db.py]: a copy of the staged dictionary
    becomes the committed one. *)
Module Copying.
Definition commit : M pyval :=
  ts <- get_transaction_state ;;
  match ts with
  | None => raise NoTransactionError
  | Some t =>
      c <- dict_copy t ;;
      set_main_state c ;;;
      set_transaction_state None ;;;
      ret PyNone
  end.
End Copying.

Inductive source_file : Type := InMemoryDB_py | in_memory_db_py.

Definition commit (f : source_file) : M pyval :=
  match f with
  | InMemoryDB_py => Direct.commit
  | in_memory_db_py => Copying.commit
  end.

Definition rollback : M pyval :=
  ts <- get_transaction_state ;;
  match ts with
  | None => raise NoTransactionError
  | Some _ =>
      set_transaction_state None ;;;
      ret PyNone
  end.

(** ** Callers: sequences of method calls *)

Inductive op : Type :=
  | Begin
  | Put (key : string) (value : pyval)
  | Get (key : string)
  | Commit
  | Rollback.

Definition call (f : source_file) (o : op) : M pyval :=
  match o with
  | Begin => begin_transaction
  | Put key value => put key value
  | Get key => get key
  | Commit => commit f
  | Rollback => rollback
  end.

(** A caller that makes the calls in turn and records what each one
    returned or raised. *)
Fixpoint run (f : source_file) (ops : list op) (db : InMemoryDB)
  : list (exn + pyval) * InMemoryDB :=
  match ops with
  | [] => ([], db)
  | o :: ops' =>
      let '(r, db') := call f o db in
      let '(rs, db'') := run f ops' db' in
      (r :: rs, db'')
  end.

Inductive reachable (f : source_file) : InMemoryDB → Prop :=
  | reachable_init : reachable f init
  | reachable_call db o : reachable f db → reachable f (call f o db).2.

(** ** Observations and well-formedness *)

(** The committed mapping and the staged mapping, as values. *)
Definition committed (db : InMemoryDB) : dict :=
  deref (heap db) (main_state db).

Definition staged (db : InMemoryDB) : option dict :=
  deref (heap db) <$> transaction_state db.

(** Both references point into the store, and to different objects. *)
Definition wf (db : InMemoryDB) : Prop :=
  main_state db < length (heap db) ∧
  match transaction_state db with
  | Some t => t < length (heap db) ∧ t ≠ main_state db
  | None => True
  end.

(** The calls [put(k1, v1); ...; put(kn, vn)]. *)
Definition puts (kvs : list (string * pyval)) : list op :=
  map (λ kv, Put kv.1 kv.2) kvs.

(** The puts whose value passes the [isinstance] check: those an open
    transaction stores. *)
Definition accepted (kvs : list (string * pyval)) : list (string * pyval) :=
  List.filter (λ kv, isinstance_int kv.2) kvs.

(** What [put] returns or raises while a transaction is open. *)
Definition put_result (kv : string * pyval) : exn + pyval :=
  if isinstance_int kv.2 then
    if formattable kv.2 then inr PyNone else inl ValueError
  else inl ValueError.

(** What [get] returns or raises for the value its dictionary lookup
    gave ([None] for a missing key). *)
Definition get_outcome (result : pyval) : exn + pyval :=
  if formattable result then inr result else inl ValueError.


(** The dictionary after the assignments [d[k] = v] in turn. *)
Definition assign_all (kvs : list (string * pyval)) (d : dict) : dict :=
  foldl (λ d kv, <[kv.1 := kv.2]> d) d kvs.

(** The value-level reading of a call: what it returns and how it changes
    the pair (committed mapping, staged mapping).  Used to reason about
    the store-level methods above; [call_view] relates the two. *)
Definition view (db : InMemoryDB) : dict * option dict :=
  (committed db, staged db).

Definition view_call (o : op) (v : dict * option dict)
  : (exn + pyval) * (dict * option dict) :=
  match o, v with
  | Begin, (c, None) => (inr PyNone, (c, Some c))
  | Begin, (_, Some _) => (inl Exception, v)
  | Put key value, (c, s) =>
      if isinstance_int value then
        match s with
        | None =>
            (inl (if formattable value then NoTransactionError
                  else ValueError), v)
        | Some d =>
            (if formattable value then inr PyNone else inl ValueError,
             (c, Some (<[key := value]> d)))
        end
      else (inl ValueError, v)
  | Get key, (c, s) => (get_outcome (default PyNone (default c s !! key)), v)
  | Commit, (_, Some d) => (inr PyNone, (d, None))
  | Commit, (_, None) => (inl NoTransactionError, v)
  | Rollback, (c, Some _) => (inr PyNone, (c, None))
  | Rollback, (_, None) => (inl NoTransactionError, v)
  end.

Fixpoint view_run (ops : list op) (v : dict * option dict)
  : list (exn + pyval) * (dict * option dict) :=
  match ops with
  | [] => ([], v)
  | o :: ops' =>
      let '(r, v') := view_call o v in
      let '(rs, v'') := view_run ops' v' in
      (r :: rs, v'')
  end.

(** Instances used as concrete examples: the committed mapping
    [{"A": 6}] of the test scenario, idle and with a transaction open. *)
Definition db_A6 : InMemoryDB :=
  {| heap := [{[ "A"%string := PyInt 6 ]}]; main_state := 0;
     transaction_state := None |}.

Definition db_A6_open : InMemoryDB :=
  {| heap := [{[ "A"%string := PyInt 6 ]}; {[ "A"%string := PyInt 6 ]}];
     main_state := 0; transaction_state := Some 1 |}.

(** The instance after [begin_transaction(); put("A", n)] on a new one:
    the staged dictionary holds [n], also when the call raised. *)
Definition db_put_open (n : Z) : InMemoryDB :=
  {| heap := [∅; {[ "A"%string := PyInt n ]}]; main_state := 0;
     transaction_state := Some 1 |}.

(** ** The methods with their diagnostics

    The same methods once more, with the [print] calls of the source: the
    state is the instance together with the lines written to standard
    output so far.  Field and dictionary operations and f-strings are
    those above. *)

Module Logged.

Definition world : Type := InMemoryDB * list string.

Definition IO (A : Type) : Type := world → (exn + A) * world.

(** An operation on the instance, printing nothing. *)
Definition lift {A} (m : M A) : IO A := λ w,
  let '(r, db') := m w.1 in (r, (db', w.2)).

(** [print(line)]. *)
Definition print (line : string) : IO unit := λ w,
  (inr (), (w.1, w.2 ++ [line])).

Definition ret {A} (a : A) : IO A := λ w, (inr a, w).

Definition raise {A} (e : exn) : IO A := λ w, (inl e, w).

Definition bind {A B} (m : IO A) (k : A → IO B) : IO B := λ w,
  match m w with
  | (inl e, w') => (inl e, w')
  | (inr a, w') => k a w'
  end.

Notation "x <<- m ;; k" := (bind m (λ x, k))
  (at level 100, m at next level, right associativity).
Notation "m >>> k" := (bind m (λ _, k))
  (at level 100, right associativity).

Definition begin_transaction : IO pyval :=
  ts <<- lift get_transaction_state ;;
  match ts with
  | Some _ => raise Exception
  | None =>
      m <<- lift get_main_state ;;
      c <<- lift (dict_copy m) ;;
      lift (set_transaction_state (Some c)) >>>
      print "--- Transaction started ---" >>>
      ret PyNone
  end.

Definition put (key : string) (value : pyval) : IO pyval :=
  if negb (isinstance_int value) then raise ValueError
  else
    ts <<- lift get_transaction_state ;;
    match ts with
    | None =>
        lift (put_message key value) >>>
        raise NoTransactionError
    | Some t =>
        lift (dict_setitem t key value) >>>
        line <<- lift (put_line key value) ;;
        print line >>>
        ret PyNone
    end.

Definition get (key : string) : IO pyval :=
  ts <<- lift get_transaction_state ;;
  rs <<- match ts with
         | Some t =>
             result <<- lift (dict_get t key) ;;
             ret (result, "transaction"%string)
         | None =>
             m <<- lift get_main_state ;;
             result <<- lift (dict_get m key) ;;
             ret (result, "main"%string)
         end ;;
  let '(result, source) := rs in
  match result with
  | PyNone =>
      print (get_none_line key source) >>>
      ret PyNone
  | _ =>
      line <<- lift (get_line key result source) ;;
      print line >>>
      ret result
  end.

(** [commit] of [src/InMemoryDB.py]. *)
Definition commit_direct : IO pyval :=
  ts <<- lift get_transaction_state ;;
  match ts with
  | None => raise NoTransactionError
  | Some t =>
      lift (set_main_state t) >>>
      lift (set_transaction_state None) >>>
      print "--- Transaction committed successfully ---" >>>
      ret PyNone
  end.

(** [commit] of [src/in_memory_db.py]. *)
Definition commit_copying : IO pyval :=
  ts <<- lift get_transaction_state ;;
  match ts with
  | None => raise NoTransactionError
  | Some t =>
      c <<- lift (dict_copy t) ;;
      lift (set_main_state c) >>>
      lift (set_transaction_state None) >>>
      print "--- Transaction committed successfully ---" >>>
      ret PyNone
  end.

Definition commit (f : source_file) : IO pyval :=
  match f with
  | InMemoryDB_py => commit_direct
  | in_memory_db_py => commit_copying
  end.

Definition rollback : IO pyval :=
  ts <<- lift get_transaction_state ;;
  match ts with
  | None => raise NoTransactionError
  | Some _ =>
      lift (set_transaction_state None) >>>
      print "--- Transaction rolled back successfully (changes discarded) ---" >>>
      ret PyNone
  end.

Definition call (f : source_file) (o : op) : IO pyval :=
  match o with
  | Begin => begin_transaction
  | Put key value => put key value
  | Get key => get key
  | Commit => commit f
  | Rollback => rollback
  end.

Fixpoint run (f : source_file) (ops : list op) (w : world)
  : list (exn + pyval) * world :=
  match ops with
  | [] => ([], w)
  | o :: ops' =>
      let '(r, w') := call f o w in
      let '(rs, w'') := run f ops' w' in
      (r :: rs, w'')
  end.

End Logged.



(** Every value a dictionary holds passes the [isinstance] check. *)
Definition int_values (d : dict) : Prop :=
  ∀ key value, d !! key = Some value → isinstance_int value = true.



(** Both mappings hold integers only, and the staged one has every key of
    the committed one. *)
Definition typed (v : dict * option dict) : Prop :=
  int_values v.1 ∧
  ∀ d, v.2 = Some d → int_values d ∧ ∀ key, is_Some (v.1 !! key) → is_Some (d !! key).

(** The key is in the committed mapping, and in the staged one if any. *)
Definition present (key : string) (v : dict * option dict) : Prop :=
  is_Some (v.1 !! key) ∧ ∀ d, v.2 = Some d → is_Some (d !! key).

Arguments str_int_ok : simpl never.

(** ** Equations of the methods *)

Section Store.

Implicit Types (h : list dict) (l t : loc) (d : dict) (db : InMemoryDB).

Lemma deref_app_l h d l : l < length h → deref (h ++ [d]) l = deref h l.
Proof. intros Hl. unfold deref. by rewrite lookup_app_l. Qed.

Lemma deref_app_new h d : deref (h ++ [d]) (length h) = d.
Proof.
  unfold deref. rewrite lookup_app_r by lia.
  by replace (length h - length h) with 0 by lia.
Qed.

Lemma deref_insert_eq h d l : l < length h → deref (<[l := d]> h) l = d.
Proof. intros Hl. unfold deref. by rewrite list_lookup_insert_eq. Qed.

Lemma deref_insert_ne h d l t : t ≠ l → deref (<[t := d]> h) l = deref h l.
Proof. intros Hl. unfold deref. by rewrite list_lookup_insert_ne. Qed.

(** [10**4300] is too long, and so is its opposite. *)
Lemma str_int_ok_huge : str_int_ok huge = false.
Proof.
  unfold str_int_ok, huge. rewrite Z.abs_eq by by apply Z.pow_nonneg.
  apply Z.ltb_irrefl.
Qed.

Lemma formattable_huge : formattable (PyInt huge) = false.
Proof. apply str_int_ok_huge. Qed.

(** From here on [10**4300] is not computed: what is used of it is
    [str_int_ok_huge]. *)
Opaque huge.

Lemma begin_open db t :
  transaction_state db = Some t → begin_transaction db = (inl Exception, db).
Proof. intros H. unfold begin_transaction, bind, get_transaction_state. by rewrite H. Qed.

Lemma begin_idle db :
  transaction_state db = None →
  begin_transaction db =
    (inr PyNone,
     {| heap := heap db ++ [committed db]; main_state := main_state db;
        transaction_state := Some (length (heap db)) |}).
Proof.
  intros H. unfold begin_transaction, bind, get_transaction_state. by rewrite H.
Qed.

Lemma put_not_int db key value :
  isinstance_int value = false → put key value db = (inl ValueError, db).
Proof. intros H. unfold put. by rewrite H. Qed.

Lemma put_idle db key value :
  isinstance_int value = true → transaction_state db = None →
  put key value db =
    (inl (if formattable value then NoTransactionError else ValueError), db).
Proof.
  intros Hv H. destruct db as [h m ts]. simpl in H. subst ts.
  unfold put. rewrite Hv. simpl.
  unfold bind, put_message, format_field, py_str. simpl.
  by destruct (formattable value).
Qed.

Lemma put_open db key value t :
  isinstance_int value = true → transaction_state db = Some t →
  put key value db =
    (if formattable value then inr PyNone else inl ValueError,
     {| heap := <[t := <[key := value]> (deref (heap db) t)]> (heap db);
        main_state := main_state db; transaction_state := Some t |}).
Proof.
  intros Hv H. destruct db as [h m ts]. simpl in H. subst ts.
  unfold put. rewrite Hv. simpl.
  unfold bind, put_line, format_field, py_str. simpl.
  by destruct (formattable value).
Qed.

Lemma get_eq db key :
  get key db =
    (get_outcome (default PyNone (default (committed db) (staged db) !! key)),
     db).
Proof.
  unfold get, bind, get_transaction_state, staged, committed.
  destruct (transaction_state db) as [t|]; simpl.
  - destruct (default PyNone (deref (heap db) t !! key)) as [|b|n|s];
      try done.
    unfold get_outcome, get_line, bind, format_field, py_str. simpl.
    by destruct (str_int_ok n).
  - destruct (default PyNone (deref (heap db) (main_state db) !! key))
      as [|b|n|s]; try done.
    unfold get_outcome, get_line, bind, format_field, py_str. simpl.
    by destruct (str_int_ok n).
Qed.

Lemma rollback_idle db :
  transaction_state db = None → rollback db = (inl NoTransactionError, db).
Proof. intros H. unfold rollback, bind, get_transaction_state. by rewrite H. Qed.

Lemma rollback_open db t :
  transaction_state db = Some t →
  rollback db =
    (inr PyNone,
     {| heap := heap db; main_state := main_state db;
        transaction_state := None |}).
Proof. intros H. unfold rollback, bind, get_transaction_state. by rewrite H. Qed.

Lemma commit_idle f db :
  transaction_state db = None → commit f db = (inl NoTransactionError, db).
Proof.
  intros H. destruct f; unfold commit, Direct.commit, Copying.commit, bind,
    get_transaction_state; by rewrite H.
Qed.

Lemma commit_direct_open db t :
  transaction_state db = Some t →
  commit InMemoryDB_py db =
    (inr PyNone,
     {| heap := heap db; main_state := t; transaction_state := None |}).
Proof.
  intros H. unfold commit, Direct.commit, bind, get_transaction_state.
  by rewrite H.
Qed.

Lemma commit_copying_open db t :
  transaction_state db = Some t →
  commit in_memory_db_py db =
    (inr PyNone,
     {| heap := heap db ++ [deref (heap db) t];
        main_state := length (heap db); transaction_state := None |}).
Proof.
  intros H. unfold commit, Copying.commit, bind, get_transaction_state.
  by rewrite H.
Qed.

End Store.

(** ** Well-formedness and the value-level view *)

Section View.

Implicit Types (h : list dict) (l t : loc) (d : dict) (db : InMemoryDB).

Lemma wf_idle db :
  main_state db < length (heap db) → transaction_state db = None → wf db.
Proof. intros Hm Hts. split; [done|]. by rewrite Hts. Qed.

Lemma wf_open db t :
  main_state db < length (heap db) → transaction_state db = Some t →
  t < length (heap db) → t ≠ main_state db → wf db.
Proof. intros Hm Hts Ht Hne. split; [done|]. by rewrite Hts. Qed.

Lemma wf_init : wf init.
Proof. apply wf_idle; [simpl; lia|done]. Qed.

Lemma view_idle db :
  transaction_state db = None → view db = (committed db, None).
Proof. intros H. unfold view, staged. by rewrite H. Qed.

Lemma view_open db t :
  transaction_state db = Some t →
  view db = (committed db, Some (deref (heap db) t)).
Proof. intros H. unfold view, staged. by rewrite H. Qed.

(** Each call returns what its value-level reading returns, changes the
    two mappings as the reading says, and keeps the instance well formed. *)
Lemma call_view f o db :
  wf db →
  (call f o db).1 = (view_call o (view db)).1 ∧
  view (call f o db).2 = (view_call o (view db)).2 ∧
  wf (call f o db).2.
Proof.
  intros Hwf. pose proof Hwf as [Hm Ht].
  destruct (transaction_state db) as [t|] eqn:Hts.
  - destruct Ht as [Hlt Hne].
    rewrite (view_open db t Hts).
    destruct o as [|key value|key| |]; simpl.
    + rewrite (begin_open db t Hts). simpl.
      split_and!; [done|by apply view_open|done].
    + destruct (isinstance_int value) eqn:Hv.
      * rewrite (put_open db key value t Hv Hts). simpl.
        unfold view, committed, staged. simpl.
        rewrite deref_insert_eq by done.
        rewrite deref_insert_ne by done.
        split_and!; [done|done|].
        apply (wf_open _ t); simpl; rewrite ?length_insert; done.
      * rewrite (put_not_int db key value Hv). simpl.
        split_and!; [done|by apply view_open|done].
    + rewrite get_eq. simpl. unfold staged. rewrite Hts. simpl.
      split_and!; [done|by apply view_open|done].
    + destruct f.
      * rewrite (commit_direct_open db t Hts). simpl.
        split_and!; [done|done|by apply wf_idle].
      * rewrite (commit_copying_open db t Hts). simpl.
        unfold view, committed, staged. simpl. rewrite deref_app_new.
        split_and!; [done|done|].
        apply wf_idle; [simpl; rewrite length_app; simpl; lia|done].
    + rewrite (rollback_open db t Hts). simpl.
      split_and!; [done|done|by apply wf_idle].
  - rewrite (view_idle db Hts).
    destruct o as [|key value|key| |]; simpl.
    + rewrite (begin_idle db Hts). simpl.
      unfold view, committed, staged. simpl.
      rewrite deref_app_new, deref_app_l by done.
      split_and!; [done|done|].
      apply (wf_open _ (length (heap db))); simpl;
        rewrite ?length_app; simpl; try done; lia.
    + destruct (isinstance_int value) eqn:Hv.
      * rewrite (put_idle db key value Hv Hts). simpl.
        split_and!; [done|by apply view_idle|done].
      * rewrite (put_not_int db key value Hv). simpl.
        split_and!; [done|by apply view_idle|done].
    + rewrite get_eq. simpl. unfold staged. rewrite Hts. simpl.
      split_and!; [done|by apply view_idle|done].
    + rewrite (commit_idle f db Hts). simpl.
      split_and!; [done|by apply view_idle|done].
    + rewrite (rollback_idle db Hts). simpl.
      split_and!; [done|by apply view_idle|done].
Qed.

Lemma call_wf f o db : wf db → wf (call f o db).2.
Proof. intros H. by apply call_view. Qed.

Lemma reachable_wf f db : reachable f db → wf db.
Proof.
  induction 1 as [|db o _ IH]; [apply wf_init|by apply call_wf].
Qed.

Lemma run_cons f o ops db :
  run f (o :: ops) db =
    ((call f o db).1 :: (run f ops (call f o db).2).1,
     (run f ops (call f o db).2).2).
Proof.
  simpl. destruct (call f o db) as [r db']. simpl.
  by destruct (run f ops db').
Qed.

Lemma view_run_cons o ops v :
  view_run (o :: ops) v =
    ((view_call o v).1 :: (view_run ops (view_call o v).2).1,
     (view_run ops (view_call o v).2).2).
Proof.
  simpl. destruct (view_call o v) as [r v']. simpl.
  by destruct (view_run ops v').
Qed.

Lemma run_app f ops1 ops2 db :
  run f (ops1 ++ ops2) db =
    ((run f ops1 db).1 ++ (run f ops2 (run f ops1 db).2).1,
     (run f ops2 (run f ops1 db).2).2).
Proof.
  revert db. induction ops1 as [|o ops1 IH]; intros db.
  - simpl. by destruct (run f ops2 db).
  - rewrite <- app_comm_cons. rewrite !run_cons. simpl. by rewrite IH.
Qed.

Lemma view_run_app ops1 ops2 v :
  view_run (ops1 ++ ops2) v =
    ((view_run ops1 v).1 ++ (view_run ops2 (view_run ops1 v).2).1,
     (view_run ops2 (view_run ops1 v).2).2).
Proof.
  revert v. induction ops1 as [|o ops1 IH]; intros v.
  - simpl. by destruct (view_run ops2 v).
  - rewrite <- app_comm_cons. rewrite !view_run_cons. simpl. by rewrite IH.
Qed.

(** A sequence of calls returns what its value-level reading returns. *)
Lemma run_view f ops db :
  wf db →
  (run f ops db).1 = (view_run ops (view db)).1 ∧
  view (run f ops db).2 = (view_run ops (view db)).2 ∧
  wf (run f ops db).2.
Proof.
  revert db. induction ops as [|o ops IH]; intros db Hwf; [done|].
  rewrite run_cons, view_run_cons. simpl.
  destruct (call_view f o db Hwf) as (Hr & Hv & Hwf').
  destruct (IH _ Hwf') as (Hrs & Hvs & Hwfs).
  rewrite Hv in Hrs, Hvs. rewrite Hr, Hrs, Hvs. done.
Qed.

Lemma reachable_run f ops db : reachable f db → reachable f (run f ops db).2.
Proof.
  revert db. induction ops as [|o ops IH]; intros db H; [done|].
  rewrite run_cons. simpl. apply IH. by constructor.
Qed.

End View.

(** ** Sequences of puts inside a transaction *)

Section Puts.

Implicit Types (d c : dict) (kvs : list (string * pyval)).


(** In an open transaction each put succeeds or is refused by its value
    alone, and the accepted ones assign in turn; the committed mapping is
    left alone and the transaction stays open. *)
Lemma view_run_puts kvs c d :
  view_run (puts kvs) (c, Some d) =
    (map put_result kvs, (c, Some (assign_all (accepted kvs) d))).
Proof.
  revert d. induction kvs as [|[k v] kvs IH]; intros d; [done|].
  unfold puts. rewrite map_cons, view_run_cons. fold (puts kvs).
  unfold put_result at 1. simpl.
  destruct (isinstance_int v); simpl; by rewrite IH.
Qed.

End Puts.

(** ** How a call moves the two references *)

Section Frame.

Implicit Types (db : InMemoryDB) (o : op) (f : source_file).

(** Case analysis on a call: the method, whether a transaction is open,
    and for [put] whether the value is an integer; each case is rewritten
    with the equation of the method. *)
Ltac call_cases f o db :=
  let Hts := fresh "Hts" in
  let Hv := fresh "Hv" in
  destruct (transaction_state db) as [?t|] eqn:Hts;
  destruct o as [|?key ?value|?key| |]; simpl;
  [ rewrite (begin_open db _ Hts)
  | destruct (isinstance_int value) eqn:Hv;
    [ rewrite (put_open db key value _ Hv Hts)
    | rewrite (put_not_int db key value Hv) ]
  | rewrite (get_eq db key)
  | destruct f;
    [ rewrite (commit_direct_open db _ Hts)
    | rewrite (commit_copying_open db _ Hts) ]
  | rewrite (rollback_open db _ Hts)
  | rewrite (begin_idle db Hts)
  | destruct (isinstance_int value) eqn:Hv;
    [ rewrite (put_idle db key value Hv Hts)
    | rewrite (put_not_int db key value Hv) ]
  | rewrite (get_eq db key)
  | rewrite (commit_idle f db Hts)
  | rewrite (rollback_idle db Hts) ];
  simpl.

Lemma call_transaction_state f o db :
  transaction_state (call f o db).2 =
    match o, transaction_state db with
    | Begin, None => Some (length (heap db))
    | Commit, _ | Rollback, _ => None
    | _, ts => ts
    end.
Proof. call_cases f o db; done. Qed.

Lemma call_main_state f o db :
  main_state (call f o db).2 =
    match o, f, transaction_state db with
    | Commit, InMemoryDB_py, Some t => t
    | Commit, in_memory_db_py, Some _ => length (heap db)
    | _, _, _ => main_state db
    end.
Proof. call_cases f o db; try done; by destruct f. Qed.


Lemma run_puts_main_state f kvs db :
  main_state (run f (puts kvs) db).2 = main_state db.
Proof.
  revert db. induction kvs as [|[k v] kvs IH]; intros db; [done|].
  unfold puts. rewrite map_cons, run_cons. fold (puts kvs). simpl.
  rewrite IH. exact (call_main_state f (Put k v) db).
Qed.

End Frame.

(** ** The scenarios of the test suite *)

Section Scenarios.

Local Open Scope string_scope.

(** [test_example_scenario] of [src/in_memory_db.py], call by call. *)
Example test_example_scenario f :
  (run f [Get "A"; Put "A" (PyInt 5); Begin; Put "A" (PyInt 5); Get "A";
          Put "A" (PyInt 6); Get "A"; Commit; Get "A"; Commit; Rollback;
          Get "B"; Begin; Put "B" (PyInt 10); Get "B"; Get "A"; Rollback;
          Get "B"; Get "A"] init).1
  = [inr PyNone; inl NoTransactionError; inr PyNone; inr PyNone;
     inr (PyInt 5); inr PyNone; inr (PyInt 6); inr PyNone; inr (PyInt 6);
     inl NoTransactionError; inl NoTransactionError; inr PyNone; inr PyNone;
     inr PyNone; inr (PyInt 10); inr (PyInt 6); inr PyNone; inr PyNone;
     inr (PyInt 6)].
Proof. by destruct f. Qed.

Example test_single_transaction_enforcement f :
  (run f [Begin; Begin; Rollback] init).1
  = [inr PyNone; inl Exception; inr PyNone].
Proof. by destruct f. Qed.

Example test_overwrite_existing_key f :
  (run f [Begin; Put "K" (PyInt 10); Commit; Get "K"; Begin;
          Put "K" (PyInt 20); Get "K"; Rollback; Get "K"] init).1
  = [inr PyNone; inr PyNone; inr PyNone; inr (PyInt 10); inr PyNone;
     inr PyNone; inr (PyInt 20); inr PyNone; inr (PyInt 10)].
Proof. by destruct f. Qed.

(** [bool] passes the [isinstance] check, a string does not. *)
Example put_bool_and_str f :
  (run f [Begin; Put "K" (PyBool true); Get "K"; Put "K" (PyStr "1");
          Get "K"] init).1
  = [inr PyNone; inr PyNone; inr (PyBool true); inl ValueError;
     inr (PyBool true)].
Proof. by destruct f. Qed.

End Scenarios.

(** ** Puts, whatever their outcome *)

Section PutEffects.

Implicit Types (h : list dict) (l t : loc) (d : dict) (db : InMemoryDB).

(** The instance after a [put], whatever its outcome. *)
Lemma put_state db key value :
  (put key value db).2 =
    match isinstance_int value, transaction_state db with
    | true, Some t =>
        {| heap := <[t := <[key := value]> (deref (heap db) t)]> (heap db);
           main_state := main_state db; transaction_state := Some t |}
    | _, _ => db
    end.
Proof.
  destruct (isinstance_int value) eqn:Hv;
    destruct (transaction_state db) as [t|] eqn:Hts.
  - by rewrite (put_open db key value t Hv Hts).
  - by rewrite (put_idle db key value Hv Hts).
  - by rewrite (put_not_int db key value Hv).
  - by rewrite (put_not_int db key value Hv).
Qed.

(** Two assignments to the same object, one after the other. *)
Lemma setitem_twice h t k1 v1 k2 v2 :
  <[t := <[k2 := v2]> (deref (<[t := <[k1 := v1]> (deref h t)]> h) t)]>
    (<[t := <[k1 := v1]> (deref h t)]> h)
  = <[t := <[k2 := v2]> (<[k1 := v1]> (deref h t))]> h.
Proof.
  destruct (decide (t < length h)) as [Hlt|Hge].
  - rewrite deref_insert_eq by done. by rewrite list_insert_insert_eq.
  - rewrite !(list_insert_ge h) by lia. done.
Qed.

Lemma run_two f o1 o2 db :
  (run f [o1; o2] db).2 = (call f o2 (call f o1 db).2).2.
Proof. by rewrite !run_cons. Qed.

Lemma run_one f o db : (run f [o] db).2 = (call f o db).2.
Proof. by rewrite !run_cons. Qed.

End PutEffects.

Section LongInt.

Implicit Types (n : Z).

Lemma run_results f ops db :
  wf db → (run f ops db).1 = (view_run ops (view db)).1.
Proof. intros Hwf. by destruct (run_view f ops db Hwf). Qed.

(** What the methods do with an integer that is too long, stated for any
    such integer; [str_int_ok_huge] gives one. *)
Lemma long_int_commit f n :
  str_int_ok n = false →
  (run f [Begin; Put "A"%string (PyInt n); Commit; Get "A"%string] init).1
    = [inr PyNone; inl ValueError; inr PyNone; inl ValueError] ∧
  committed (run f [Begin; Put "A"%string (PyInt n); Commit] init).2
    !! "A"%string = Some (PyInt n).
Proof.
  intros Hn. split.
  - rewrite run_results by apply wf_init.
    change (view init) with ((∅ : dict), (None : option dict)). simpl.
    rewrite Hn, lookup_insert_eq. unfold get_outcome. simpl. by rewrite Hn.
  - destruct (run_view f [Begin; Put "A"%string (PyInt n); Commit] init
                wf_init) as (_ & Hv & _).
    apply (f_equal fst) in Hv. cbn [view fst] in Hv. rewrite Hv.
    change (view init) with ((∅ : dict), (None : option dict)). simpl.
    by rewrite lookup_insert_eq.
Qed.

Lemma long_int_get f n :
  str_int_ok n = false →
  (run f [Begin; Put "A"%string (PyInt n); Get "A"%string] init).1
    = [inr PyNone; inl ValueError; inl ValueError].
Proof.
  intros Hn. rewrite run_results by apply wf_init.
  change (view init) with ((∅ : dict), (None : option dict)). simpl.
  rewrite Hn, lookup_insert_eq. unfold get_outcome. simpl. by rewrite Hn.
Qed.

Lemma long_int_put n :
  str_int_ok n = false →
  (put "A"%string (PyInt n) (begin_transaction init).2).1 = inl ValueError ∧
  staged (begin_transaction init).2 = Some ∅ ∧
  staged (put "A"%string (PyInt n) (begin_transaction init).2).2
    = Some {[ "A"%string := PyInt n ]} ∧
  (put "A"%string (PyInt n) (begin_transaction init).2).2
    ≠ (begin_transaction init).2.
Proof.
  intros Hn.
  change (begin_transaction init).2
    with {| heap := [(∅ : dict); ∅]; main_state := 0;
            transaction_state := Some 1 |}.
  rewrite (put_open {| heap := [(∅ : dict); ∅]; main_state := 0;
                       transaction_state := Some 1 |}
             "A"%string (PyInt n) 1 eq_refl eq_refl).
  simpl. rewrite Hn. split_and!; [done|done|done|].
  intros Heq. apply (f_equal staged) in Heq.
  apply (inj Some) in Heq. unfold deref in Heq. simpl in Heq.
  by apply insert_non_empty in Heq.
Qed.

(** [db_put_open n] is what [begin_transaction(); put("A", n)] leaves of a
    new instance. *)
Lemma db_put_open_reached f n :
  (run f [Begin; Put "A"%string (PyInt n)] init).2 = db_put_open n.
Proof.
  rewrite run_two.
  change (call f (Put "A"%string (PyInt n)) (call f Begin init).2)
    with (put "A"%string (PyInt n) (begin_transaction init).2).
  rewrite put_state. reflexivity.
Qed.

Lemma long_int_stored f n :
  str_int_ok n = false →
  reachable f (db_put_open n) ∧
  get "A"%string (db_put_open n) = (inl ValueError, db_put_open n).
Proof.
  intros Hn. split.
  - rewrite <- (db_put_open_reached f). apply reachable_run. constructor.
  - rewrite get_eq. unfold get_outcome.
    change (default PyNone
              (default (committed (db_put_open n)) (staged (db_put_open n))
                 !! "A"%string)) with (PyInt n).
    simpl. by rewrite Hn.
Qed.

End LongInt.

(** ** The transaction properties *)

(** C1 (commit durability), at an input where the code departs from it.
    On a new instance, [begin_transaction(); put("A", 10**4300); commit();
    get("A")]: the put assigns the value to the staged dictionary and then
    raises [ValueError] on the line it prints, the commit publishes the
    value, and [get("A")] raises [ValueError] on the line it prints instead
    of returning the value.  This holds for the [commit] of either file. *)
Theorem commit_durability_long_int f :
  (run f [Begin; Put "A"%string (PyInt huge); Commit; Get "A"%string] init).1
    = [inr PyNone; inl ValueError; inr PyNone; inl ValueError] ∧
  committed (run f [Begin; Put "A"%string (PyInt huge); Commit] init).2
    !! "A"%string = Some (PyInt huge).
Proof. exact (long_int_commit f huge str_int_ok_huge). Qed.

(** C2 (rollback isolation).  From any well-formed instance with no
    transaction open, [begin_transaction()], then any puts (whatever their
    values, so also when some are refused), then [rollback()] leaves the
    committed mapping equal to what it was, key for key, still held by the
    same reference, and no staged mapping. *)
Theorem rollback_isolation f db kvs :
  wf db → transaction_state db = None →
  committed (run f (Begin :: puts kvs ++ [Rollback]) db).2 = committed db ∧
  main_state (run f (Begin :: puts kvs ++ [Rollback]) db).2 = main_state db ∧
  (∀ key, (get key (run f (Begin :: puts kvs ++ [Rollback]) db).2).1
          = (get key db).1) ∧
  transaction_state (run f (Begin :: puts kvs ++ [Rollback]) db).2 = None ∧
  staged (run f (Begin :: puts kvs ++ [Rollback]) db).2 = None.
Proof.
  intros Hwf Hts.
  assert (Hmain : main_state (run f (Begin :: puts kvs ++ [Rollback]) db).2
                  = main_state db).
  { rewrite run_cons, run_app, run_cons. cbn [snd run].
    rewrite (call_main_state f Rollback), run_puts_main_state.
    by rewrite (call_main_state f Begin). }
  destruct (run_view f (Begin :: puts kvs ++ [Rollback]) db Hwf) as (_ & Hv & _).
  set (out := run f (Begin :: puts kvs ++ [Rollback]) db) in *. clearbody out.
  rewrite view_run_cons, view_run_app, (view_idle db Hts) in Hv.
  simpl in Hv.
  rewrite view_run_puts in Hv. simpl in Hv.
  unfold view in Hv. injection Hv as Hc Hs.
  assert (Hts' : transaction_state out.2 = None).
  { unfold staged in Hs. by destruct (transaction_state out.2). }
  split_and!; [done|done| |done|done].
  intros key. rewrite !get_eq. simpl. rewrite Hc, Hs. unfold staged.
  by rewrite Hts.
Qed.

Lemma rollback_isolation_witness :
  let kvs := [("B"%string, PyInt 10); ("A"%string, PyStr "x")] in
  let out := run in_memory_db_py (Begin :: puts kvs ++ [Rollback]) db_A6 in
  wf db_A6 ∧ transaction_state db_A6 = None ∧
  committed out.2 = committed db_A6 ∧
  main_state out.2 = main_state db_A6 ∧
  (∀ key, (get key out.2).1 = (get key db_A6).1) ∧
  transaction_state out.2 = None ∧
  staged out.2 = None.
Proof.
  assert (Hwf : wf db_A6) by (split; [simpl; lia|done]).
  split_and!; [done|done|..];
    apply (rollback_isolation in_memory_db_py db_A6 _ Hwf eq_refl).
Defined.

(** C3 (read your own writes), at an input where the code departs from
    it.  On a new instance, [begin_transaction(); put("A", 10**4300);
    get("A")]: the put raises [ValueError] on the line it prints, after the
    assignment, and [get("A")] raises [ValueError] on the line it prints
    instead of returning the value put. *)
Theorem read_your_own_writes_long_int f :
  (run f [Begin; Put "A"%string (PyInt huge); Get "A"%string] init).1
    = [inr PyNone; inl ValueError; inl ValueError].
Proof. exact (long_int_get f huge str_int_ok_huge). Qed.

(** C4 (put outside a transaction), as amended.  With no transaction
    open, [put] of an integer value that can be converted to text (at most
    4300 digits) raises [NoTransactionError], for every key; and whatever
    the value, the call raises and leaves the instance, its store and so
    the committed mapping as they were. *)
Theorem put_outside_transaction db key :
  transaction_state db = None →
  (∀ value, isinstance_int value = true → formattable value = true →
            put key value db = (inl NoTransactionError, db)) ∧
  (∀ value, (∃ e, (put key value db).1 = inl e) ∧
            (put key value db).2 = db ∧
            committed (put key value db).2 = committed db).
Proof.
  intros Hts. split.
  - intros value Hv Hf. by rewrite put_idle, Hf.
  - intros value. destruct (isinstance_int value) eqn:Hv.
    + rewrite put_idle by done. split_and!; [by eexists|done|done].
    + rewrite put_not_int by done. split_and!; [by eexists|done|done].
Qed.

Lemma put_outside_transaction_witness :
  transaction_state init = None ∧
  isinstance_int (PyInt 5) = true ∧ formattable (PyInt 5) = true ∧
  put "A"%string (PyInt 5) init = (inl NoTransactionError, init) ∧
  committed (put "A"%string (PyInt 5) init).2 = committed init.
Proof.
  split_and!; [reflexivity|reflexivity|reflexivity| |].
  - apply (proj1 (put_outside_transaction init "A"%string eq_refl));
      reflexivity.
  - apply (proj2 (put_outside_transaction init "A"%string eq_refl)).
Defined.

(** C4, the claim as first stated fails for a value that is not an
    integer: on a fresh instance [put("A", "five")] raises [ValueError],
    not [NoTransactionError], because the type check comes first. *)
Lemma put_outside_transaction_counterexample :
  transaction_state init = None ∧
  put "A"%string (PyStr "five") init = (inl ValueError, init) ∧
  (put "A"%string (PyStr "five") init).1 ≠ inl NoTransactionError.
Proof. split_and!; [reflexivity|reflexivity|discriminate]. Qed.

(** C5 (begin).  With a transaction open, [begin_transaction()] raises
    (the plain [Exception] the spec calls TransactionAlreadyActive) and
    leaves the instance and its store, hence both mappings, as they were.
    With none open, on a well-formed instance, it succeeds; the staged
    mapping is then equal to the committed one but is a different object,
    the committed mapping is unchanged, and every [get] returns what it
    returned before. *)
Theorem begin_transaction_spec db :
  (∀ t, transaction_state db = Some t →
        begin_transaction db = (inl Exception, db)) ∧
  (wf db → transaction_state db = None →
   (begin_transaction db).1 = inr PyNone ∧
   staged (begin_transaction db).2 = Some (committed db) ∧
   committed (begin_transaction db).2 = committed db ∧
   (∃ t, transaction_state (begin_transaction db).2 = Some t ∧
         t ≠ main_state (begin_transaction db).2 ∧
         heap db !! t = None) ∧
   ∀ key, (get key (begin_transaction db).2).1 = (get key db).1).
Proof.
  split; [intros t Hts; by apply (begin_open db t)|].
  intros [Hm _] Hts. rewrite (begin_idle db Hts). simpl.
  assert (Hs : staged
            {| heap := heap db ++ [committed db]; main_state := main_state db;
               transaction_state := Some (length (heap db)) |}
          = Some (committed db)).
  { unfold staged. simpl. by rewrite deref_app_new. }
  assert (Hc : committed
            {| heap := heap db ++ [committed db]; main_state := main_state db;
               transaction_state := Some (length (heap db)) |}
          = committed db).
  { unfold committed. simpl. by rewrite deref_app_l. }
  split_and!; [done|done|done| |].
  - exists (length (heap db)). split_and!; [done|lia|].
    by apply lookup_ge_None.
  - intros key. rewrite !get_eq. cbn [fst]. rewrite Hs, Hc. unfold staged.
    by rewrite Hts.
Qed.

Lemma begin_transaction_spec_witness :
  (transaction_state db_A6_open = Some 1 ∧
   begin_transaction db_A6_open = (inl Exception, db_A6_open)) ∧
  (wf db_A6 ∧ transaction_state db_A6 = None ∧
   (begin_transaction db_A6).1 = inr PyNone ∧
   staged (begin_transaction db_A6).2 = Some (committed db_A6)).
Proof.
  assert (Hwf : wf db_A6) by (split; [simpl; lia|done]).
  split; [split; [reflexivity|]|split_and!; [done|reflexivity|..]].
  - apply (proj1 (begin_transaction_spec db_A6_open) 1). reflexivity.
  - apply (proj2 (begin_transaction_spec db_A6) Hwf eq_refl).
  - apply (proj2 (begin_transaction_spec db_A6) Hwf eq_refl).
Defined.

(** C6 (error atomicity), at an input where the code departs from it.
    On a new instance with a transaction begun, [put("A", 10**4300)] raises
    [ValueError] on the line it prints, after the assignment: the call
    failed, and the staged mapping, empty before it, holds the value. *)
Theorem failed_put_changes_staged :
  (put "A"%string (PyInt huge) (begin_transaction init).2).1 = inl ValueError ∧
  staged (begin_transaction init).2 = Some ∅ ∧
  staged (put "A"%string (PyInt huge) (begin_transaction init).2).2
    = Some {[ "A"%string := PyInt huge ]} ∧
  (put "A"%string (PyInt huge) (begin_transaction init).2).2
    ≠ (begin_transaction init).2.
Proof. exact (long_int_put huge str_int_ok_huge). Qed.

(** C7 (get never fails), at an input where the code departs from it.
    The state reached from a new instance by [begin_transaction();
    put("A", 10**4300)] holds the value in the staged dictionary; there
    [get("A")] raises [ValueError] on the line it prints.  It leaves the
    instance as it was. *)
Theorem get_raises_on_long_int f :
  reachable f (db_put_open huge) ∧
  get "A"%string (db_put_open huge) = (inl ValueError, db_put_open huge).
Proof. exact (long_int_stored f huge str_int_ok_huge). Qed.

Lemma view_call_committed o v : o ≠ Commit → (view_call o v).2.1 = v.1.
Proof.
  intros Ho. destruct v as [c [d|]]; destruct o as [|key value|key| |];
    simpl; try done; by destruct (isinstance_int value).
Qed.

Lemma call_committed f o db :
  wf db → o ≠ Commit → committed (call f o db).2 = committed db.
Proof.
  intros Hwf Ho. destruct (call_view f o db Hwf) as (_ & Hv & _).
  apply (f_equal fst) in Hv. rewrite view_call_committed in Hv by done.
  exact Hv.
Qed.

(** C8 (state machine).  In every state reachable from [InMemoryDB()] by
    calls of the five methods, the instance is well formed: one committed
    dictionary and at most one staged dictionary, a different object.  For
    any further call: an open transaction's staged dictionary is never
    replaced by another one; a call that opens a transaction is
    [begin_transaction]; a call that closes one is [commit] or [rollback];
    these three calls do make those transitions; and a call other than
    [commit] leaves the committed mapping, and the reference to it, as they
    were, while [commit] makes the staged mapping the committed one. *)
Theorem state_machine f db o :
  reachable f db →
  wf db ∧
  (∀ t, transaction_state db = Some t →
        transaction_state (call f o db).2 = Some t ∨
        transaction_state (call f o db).2 = None) ∧
  (transaction_state db = None →
   transaction_state (call f o db).2 ≠ None → o = Begin) ∧
  (transaction_state db ≠ None →
   transaction_state (call f o db).2 = None → o = Commit ∨ o = Rollback) ∧
  (transaction_state db = None →
   transaction_state (call f Begin db).2 ≠ None) ∧
  (transaction_state db ≠ None →
   transaction_state (call f Commit db).2 = None ∧
   transaction_state (call f Rollback db).2 = None) ∧
  (o ≠ Commit →
   committed (call f o db).2 = committed db ∧
   main_state (call f o db).2 = main_state db) ∧
  (∀ d, staged db = Some d → committed (call f Commit db).2 = d).
Proof.
  intros Hr. pose proof (reachable_wf f db Hr) as Hwf.
  split_and!.
  - done.
  - intros t Hts. rewrite call_transaction_state, Hts.
    destruct o; auto.
  - intros Hts. rewrite call_transaction_state, Hts.
    by destruct o.
  - intros Hts. rewrite call_transaction_state.
    destruct (transaction_state db) as [t|]; [|done].
    destruct o; auto; done.
  - intros Hts. by rewrite call_transaction_state, Hts.
  - intros Hts. by rewrite !call_transaction_state.
  - intros Ho. split; [by apply call_committed|].
    rewrite call_main_state. by destruct o.
  - intros d Hd. destruct (call_view f Commit db Hwf) as (_ & Hv & _).
    unfold view at 2 in Hv. rewrite Hd in Hv.
    apply (f_equal fst) in Hv. exact Hv.
Qed.

Lemma state_machine_witness :
  reachable InMemoryDB_py init ∧
  transaction_state init = None ∧
  transaction_state (call InMemoryDB_py Begin init).2 ≠ None ∧
  committed (call InMemoryDB_py (Put "A"%string (PyInt 5)) init).2
    = committed init.
Proof.
  assert (Hr : reachable InMemoryDB_py init) by constructor.
  split_and!; [done|reflexivity| |].
  - destruct (state_machine InMemoryDB_py init Begin Hr)
      as (_ & _ & _ & _ & Hopen & _).
    apply Hopen. reflexivity.
  - destruct (state_machine InMemoryDB_py init (Put "A"%string (PyInt 5)) Hr)
      as (_ & _ & _ & _ & _ & _ & Hkeep & _).
    apply Hkeep. discriminate.
Defined.

(** C9 (type check first).  [put] of a value that is not an integer raises
    [ValueError], for every key and in every state, so also when no
    transaction is open, where it does not raise [NoTransactionError]; the
    instance and its store are left as they were. *)
Theorem put_checks_type_first db key value :
  isinstance_int value = false →
  put key value db = (inl ValueError, db) ∧
  (transaction_state db = None →
   (put key value db).1 ≠ inl NoTransactionError).
Proof.
  intros Hv. rewrite (put_not_int db key value Hv). split; [done|].
  by intros Hts.
Qed.

Lemma put_checks_type_first_witness :
  isinstance_int (PyStr "five") = false ∧
  transaction_state init = None ∧
  put "A"%string (PyStr "five") init = (inl ValueError, init).
Proof.
  split_and!; [reflexivity|reflexivity|].
  apply (put_checks_type_first init "A"%string (PyStr "five")). reflexivity.
Defined.

(** C10 (the two commits agree).  Run from [InMemoryDB()], any sequence of
    calls returns and raises the same under the [commit] of
    [src/InMemoryDB.py] as under the one of [src/in_memory_db.py], and ends
    with the same committed mapping and the same staged mapping.  The same
    holds for any sequence of calls made from a state either
    implementation can reach. *)
Theorem commit_implementations_agree :
  (∀ ops,
     (run InMemoryDB_py ops init).1 = (run in_memory_db_py ops init).1 ∧
     committed (run InMemoryDB_py ops init).2
       = committed (run in_memory_db_py ops init).2 ∧
     staged (run InMemoryDB_py ops init).2
       = staged (run in_memory_db_py ops init).2) ∧
  (∀ f db ops,
     reachable f db →
     (run InMemoryDB_py ops db).1 = (run in_memory_db_py ops db).1 ∧
     committed (run InMemoryDB_py ops db).2
       = committed (run in_memory_db_py ops db).2 ∧
     staged (run InMemoryDB_py ops db).2
       = staged (run in_memory_db_py ops db).2).
Proof.
  assert (H : ∀ db ops, wf db →
     (run InMemoryDB_py ops db).1 = (run in_memory_db_py ops db).1 ∧
     committed (run InMemoryDB_py ops db).2
       = committed (run in_memory_db_py ops db).2 ∧
     staged (run InMemoryDB_py ops db).2
       = staged (run in_memory_db_py ops db).2).
  { intros db ops Hwf.
    destruct (run_view InMemoryDB_py ops db Hwf) as (Hr1 & Hv1 & _).
    destruct (run_view in_memory_db_py ops db Hwf) as (Hr2 & Hv2 & _).
    rewrite <- Hv2 in Hv1. unfold view in Hv1. injection Hv1 as Hc Hs.
    split_and!; [congruence|done|done]. }
  split.
  - intros ops. apply H, wf_init.
  - intros f db ops Hr. apply H. by apply (reachable_wf f).
Qed.

Lemma commit_implementations_agree_witness :
  reachable in_memory_db_py init ∧
  (run InMemoryDB_py [Begin; Put "K"%string (PyInt 10); Commit;
                      Begin; Put "K"%string (PyInt 20); Get "K"%string;
                      Rollback; Get "K"%string] init).1
  = (run in_memory_db_py [Begin; Put "K"%string (PyInt 10); Commit;
                          Begin; Put "K"%string (PyInt 20); Get "K"%string;
                          Rollback; Get "K"%string] init).1.
Proof.
  split; [constructor|].
  apply (proj2 commit_implementations_agree in_memory_db_py init).
  constructor.
Defined.

(** ** Further properties of the methods *)

Section ViewInvariants.

Implicit Types (db : InMemoryDB) (v : dict * option dict).

(** A property of the two mappings kept by every call of a given kind is
    kept by sequences of such calls. *)
Lemma view_run_inv (Q : op → Prop) (P : dict * option dict → Prop) :
  (∀ o v, Q o → P v → P (view_call o v).2) →
  ∀ ops v, Forall Q ops → P v → P (view_run ops v).2.
Proof.
  intros Hstep ops. induction ops as [|o ops IH]; intros v Hops Hv; [done|].
  rewrite view_run_cons. simpl. inversion Hops; subst.
  apply IH; [done|]. by apply Hstep.
Qed.

Lemma run_inv (Q : op → Prop) (P : dict * option dict → Prop) :
  (∀ o v, Q o → P v → P (view_call o v).2) →
  ∀ f ops db, wf db → Forall Q ops → P (view db) → P (view (run f ops db).2).
Proof.
  intros Hstep f ops db Hwf Hops Hv.
  destruct (run_view f ops db Hwf) as (_ & -> & _).
  by apply (view_run_inv Q).
Qed.

Lemma reachable_inv (P : dict * option dict → Prop) :
  P (view init) →
  (∀ o v, P v → P (view_call o v).2) →
  ∀ f db, reachable f db → P (view db).
Proof.
  intros Hinit Hstep f db Hr. induction Hr as [|db o Hr IH]; [done|].
  destruct (call_view f o db (reachable_wf f db Hr)) as (_ & -> & _).
  by apply Hstep.
Qed.


Lemma typed_init : typed (view init).
Proof.
  split; [|done]. intros key value. unfold view, committed, deref. simpl.
  by rewrite lookup_empty.
Qed.

Lemma typed_step o v : typed v → typed (view_call o v).2.
Proof.
  intros [Hc Hs]. destruct v as [c [d|]]; simpl in *.
  - destruct (Hs d eq_refl) as [Hd Hsub].
    destruct o as [|k value|k| |]; simpl; try done.
    + destruct (isinstance_int value) eqn:Hv; [|done].
      split; [done|]. intros ? [= <-]. split.
      * intros key w. rewrite lookup_insert. case_decide; [|by apply Hd].
        by intros [= <-].
      * intros key Hkey. rewrite lookup_insert. case_decide; [done|].
        by apply Hsub.
  - destruct o as [|k value|k| |]; simpl; try done.
    + split; [done|]. by intros ? [= <-].
    + by destruct (isinstance_int value).
Qed.

Lemma present_step key o v : present key v → present key (view_call o v).2.
Proof.
  intros [Hc Hs]. destruct v as [c [d|]]; simpl in *.
  - pose proof (Hs d eq_refl) as Hd.
    destruct o as [|k value|k| |]; simpl; try done.
    + destruct (isinstance_int value); [|done].
      split; [done|]. intros ? [= <-]. rewrite lookup_insert.
      by case_decide.
  - destruct o as [|k value|k| |]; simpl; try done.
    + split; [done|]. by intros ? [= <-].
    + by destruct (isinstance_int value).
Qed.

Lemma typed_step_any (o : op) v : True → typed v → typed (view_call o v).2.
Proof. intros _. apply typed_step. Qed.

Lemma present_typed_step key (o : op) v :
  True → typed v ∧ present key v →
  typed (view_call o v).2 ∧ present key (view_call o v).2.
Proof.
  intros _ [Ht Hp]. split; [by apply typed_step|by apply present_step].
Qed.

Lemma get_view db key :
  (get key db).1
    = get_outcome (default PyNone (default (view db).1 (view db).2 !! key)).
Proof. by rewrite get_eq. Qed.

(** A value that passes the [isinstance] check is not [None], and [get]
    does not return [None] for it. *)
Lemma get_outcome_int value :
  isinstance_int value = true → get_outcome value ≠ inr PyNone.
Proof.
  intros Hv. unfold get_outcome.
  destruct (formattable value); [|done]. intros [= ->]. done.
Qed.

End ViewInvariants.






(** X3 (committed keys persist).  No method removes a key: once a key is
    in the committed mapping of a reachable state, it stays there through
    any further calls, and [get] never again returns [None] for it, inside
    or outside a transaction. *)
Theorem committed_keys_persist f db key ops :
  reachable f db → is_Some (committed db !! key) →
  is_Some (committed (run f ops db).2 !! key) ∧
  (get key (run f ops db).2).1 ≠ inr PyNone.
Proof.
  intros Hr Hkey.
  pose proof (reachable_inv typed typed_init typed_step f db Hr) as Ht.
  assert (Hp : present key (view db)).
  { split; [done|]. intros d Hd. by apply (proj2 Ht d Hd). }
  assert (Hops : Forall (λ _ : op, True) ops) by by apply Forall_true.
  destruct (run_inv (λ _, True) (λ v, typed v ∧ present key v)
              (present_typed_step key) f ops db (reachable_wf f db Hr)
              Hops (conj Ht Hp)) as [[Hc Hs] [Hpc Hps]].
  split; [exact Hpc|].
  rewrite get_view. destruct (view (run f ops db).2) as [c [d|]]; simpl in *.
  - destruct (Hps d eq_refl) as [v Hv]. rewrite Hv.
    apply get_outcome_int. exact (proj1 (Hs d eq_refl) key v Hv).
  - destruct Hpc as [v Hv]. rewrite Hv.
    apply get_outcome_int. exact (Hc key v Hv).
Qed.

Lemma committed_keys_persist_witness :
  let db := (run in_memory_db_py
               [Begin; Put "A"%string (PyInt 6); Commit] init).2 in
  let ops := [Begin; Put "A"%string (PyStr "x"); Rollback; Begin] in
  reachable in_memory_db_py db ∧ is_Some (committed db !! "A"%string) ∧
  is_Some (committed (run in_memory_db_py ops db).2 !! "A"%string) ∧
  (get "A"%string (run in_memory_db_py ops db).2).1 ≠ inr PyNone.
Proof.
  intros db ops.
  assert (Hr : reachable in_memory_db_py db)
    by exact (reachable_run in_memory_db_py _ init (reachable_init _)).
  assert (Hkey : is_Some (committed db !! "A"%string))
    by (exists (PyInt 6); reflexivity).
  destruct (committed_keys_persist in_memory_db_py db "A"%string ops Hr Hkey)
    as [Hc Hg].
  split_and!; [done|done|exact Hc|exact Hg].
Defined.



(** X5 (puts compose).  Whatever the state and the values, two puts to
    different keys leave the same instance in either order; and a put with
    an integer value overrides an earlier put to the same key, as if the
    earlier one had not been made. *)
Theorem puts_commute_and_override f db :
  (∀ k1 v1 k2 v2,
     k1 ≠ k2 →
     (run f [Put k1 v1; Put k2 v2] db).2 = (run f [Put k2 v2; Put k1 v1] db).2) ∧
  (∀ k v1 v2,
     isinstance_int v2 = true →
     (run f [Put k v1; Put k v2] db).2 = (run f [Put k v2] db).2).
Proof.
  split.
  - intros k1 v1 k2 v2 Hk. rewrite !run_two. simpl. rewrite !put_state.
    destruct (isinstance_int v1) eqn:Hv1; destruct (isinstance_int v2) eqn:Hv2;
      destruct (transaction_state db) as [t|] eqn:Hts; simpl;
      rewrite ?Hts, ?Hv1, ?Hv2; try done.
    rewrite !setitem_twice. by rewrite (insert_insert_ne _ k1 k2).
  - intros k v1 v2 Hv2. rewrite run_two, run_one. simpl. rewrite !put_state.
    destruct (isinstance_int v1) eqn:Hv1;
      destruct (transaction_state db) as [t|] eqn:Hts; simpl;
      rewrite ?Hts, ?Hv1, ?Hv2; try done.
    rewrite setitem_twice. by rewrite insert_insert_eq.
Qed.

Lemma puts_commute_and_override_witness :
  (run InMemoryDB_py [Put "A"%string (PyInt 1); Put "B"%string (PyInt 2)]
     db_A6_open).2
  = (run InMemoryDB_py [Put "B"%string (PyInt 2); Put "A"%string (PyInt 1)]
       db_A6_open).2 ∧
  isinstance_int (PyInt 2) = true ∧
  (run InMemoryDB_py [Put "A"%string (PyInt 1); Put "A"%string (PyInt 2)]
     db_A6_open).2
  = (run InMemoryDB_py [Put "A"%string (PyInt 2)] db_A6_open).2.
Proof.
  split_and!; [|reflexivity|].
  - apply (proj1 (puts_commute_and_override InMemoryDB_py db_A6_open)).
    discriminate.
  - apply (proj2 (puts_commute_and_override InMemoryDB_py db_A6_open)).
    reflexivity.
Defined.

(** X6 (a reference kept across commit).  A caller that kept the staged
    dictionary [t = db.transaction_state] and assigns [t[key] = value]
    after [commit()]: with the commit of [src/in_memory_db.py] the committed
    mapping is unaffected, because a copy was installed; with the commit of
    [src/InMemoryDB.py] the assignment lands in the committed mapping,
    with no transaction open and no type check, because the staged
    dictionary itself was installed. *)
Theorem reference_kept_across_commit db t key value :
  wf db → transaction_state db = Some t →
  committed (dict_setitem t key value (commit in_memory_db_py db).2).2
    = committed (commit in_memory_db_py db).2 ∧
  committed (dict_setitem t key value (commit InMemoryDB_py db).2).2
    = <[key := value]> (committed (commit InMemoryDB_py db).2) ∧
  transaction_state (dict_setitem t key value (commit InMemoryDB_py db).2).2
    = None.
Proof.
  intros [Hm Hwf] Hts. rewrite Hts in Hwf. destruct Hwf as [Hlt Hne].
  rewrite (commit_copying_open db t Hts), (commit_direct_open db t Hts).
  unfold committed. simpl. split_and!; [|by rewrite deref_insert_eq|done].
  rewrite deref_insert_ne by lia. done.
Qed.

Lemma reference_kept_across_commit_witness :
  wf db_A6_open ∧ transaction_state db_A6_open = Some 1 ∧
  committed (dict_setitem 1 "A"%string (PyStr "x")
               (commit in_memory_db_py db_A6_open).2).2
    = committed (commit in_memory_db_py db_A6_open).2 ∧
  committed (dict_setitem 1 "A"%string (PyStr "x")
               (commit InMemoryDB_py db_A6_open).2).2
    = <[ "A"%string := PyStr "x" ]> (committed (commit InMemoryDB_py db_A6_open).2).
Proof.
  assert (Hwf : wf db_A6_open) by (split; simpl; [lia|split; lia]).
  destruct (reference_kept_across_commit db_A6_open 1 "A"%string (PyStr "x")
              Hwf eq_refl) as (Hcopy & Hdirect & _).
  split_and!; [done|done|exact Hcopy|exact Hdirect].
Defined.

Section Snapshot.

Implicit Types (l t : loc) (db : InMemoryDB).

(** A dictionary in the store that is not the staged one keeps its
    contents through a call, and is still not the staged one after it. *)
Lemma call_other_object f o db l :
  l < length (heap db) → transaction_state db ≠ Some l →
  deref (heap (call f o db).2) l = deref (heap db) l ∧
  l < length (heap (call f o db).2) ∧
  transaction_state (call f o db).2 ≠ Some l.
Proof.
  intros Hl Hnot. rewrite call_transaction_state.
  destruct (transaction_state db) as [t|] eqn:Hts;
    destruct o as [|key value|key| |]; simpl.
  - by rewrite (begin_open db t Hts).
  - rewrite put_state, Hts. destruct (isinstance_int value); [|done]. simpl.
    rewrite length_insert. rewrite deref_insert_ne by congruence. done.
  - by rewrite get_eq.
  - destruct f.
    + by rewrite (commit_direct_open db t Hts).
    + rewrite (commit_copying_open db t Hts). simpl.
      rewrite length_app. simpl. rewrite deref_app_l by done.
      split_and!; [done|lia|done].
  - by rewrite (rollback_open db t Hts).
  - rewrite (begin_idle db Hts). simpl.
    rewrite length_app. simpl. rewrite deref_app_l by done.
    split_and!; [done|lia|]. intros [= ?]. lia.
  - rewrite put_state, Hts. by destruct (isinstance_int value).
  - by rewrite get_eq.
  - by rewrite (commit_idle f db Hts).
  - by rewrite (rollback_idle db Hts).
Qed.

Lemma run_other_object f ops db l :
  l < length (heap db) → transaction_state db ≠ Some l →
  deref (heap (run f ops db).2) l = deref (heap db) l.
Proof.
  revert db. induction ops as [|o ops IH]; intros db Hl Hnot; [done|].
  rewrite run_cons. simpl.
  destruct (call_other_object f o db l Hl Hnot) as (Hd & Hl' & Hnot').
  rewrite IH by done. exact Hd.
Qed.

End Snapshot.

(** X7 (the committed dictionary is never written).  No method assigns
    into a dictionary other than the staged one: through any calls, every
    dictionary of the store that is not the staged one keeps its contents.
    In particular the dictionary that [main_state] refers to now still
    holds the same items after any later calls, also once [commit] has made
    [main_state] refer to another one. *)
Theorem committed_object_never_written f db ops :
  wf db →
  (∀ l, l < length (heap db) → transaction_state db ≠ Some l →
        deref (heap (run f ops db).2) l = deref (heap db) l) ∧
  deref (heap (run f ops db).2) (main_state db) = committed db.
Proof.
  intros [Hm Hwf]. split.
  - intros l Hl Hnot. by apply run_other_object.
  - apply run_other_object; [done|].
    destruct (transaction_state db) as [t|]; [|done].
    intros [= ->]. by destruct Hwf.
Qed.

Lemma committed_object_never_written_witness :
  let ops := [Begin; Put "A"%string (PyInt 7); Commit; Begin;
              Put "A"%string (PyInt 8)] in
  wf db_A6 ∧
  deref (heap (run InMemoryDB_py ops db_A6).2) (main_state db_A6)
    = committed db_A6.
Proof.
  intros ops.
  assert (Hwf : wf db_A6) by (split; [simpl; lia|done]).
  split; [done|].
  apply (committed_object_never_written InMemoryDB_py db_A6 ops Hwf).
Defined.

(** X8 (nothing changes without a begin).  With no transaction open, calls
    other than [begin_transaction] leave the instance and its store exactly
    as they were, however many are made: each [get] returns or raises what
    it did at the start, each [put] raises ([ValueError] for a value that
    is not an integer or is too long to be converted to text,
    [NoTransactionError] otherwise), and each [commit] and [rollback]
    raises [NoTransactionError]. *)
Theorem nothing_changes_without_begin f db ops :
  transaction_state db = None → Forall (λ o, o ≠ Begin) ops →
  (run f ops db).2 = db ∧
  (run f ops db).1 =
    map (λ o, match o with
              | Get key => (get key db).1
              | Put _ value =>
                  inl (if isinstance_int value && formattable value
                       then NoTransactionError else ValueError)
              | _ => inl NoTransactionError
              end) ops.
Proof.
  intros Hts Hops. induction Hops as [|o ops Ho _ IH]; [done|].
  rewrite run_cons. simpl.
  assert (Hcall : call f o db =
    (match o with
     | Get key => (get key db).1
     | Put _ value =>
         inl (if isinstance_int value && formattable value
              then NoTransactionError else ValueError)
     | _ => inl NoTransactionError
     end, db)).
  { destruct o as [|key value|key| |]; simpl.
    - done.
    - destruct (isinstance_int value) eqn:Hv;
        [by rewrite put_idle|by rewrite put_not_int].
    - by rewrite get_eq.
    - by rewrite commit_idle.
    - by rewrite rollback_idle. }
  rewrite Hcall. simpl. destruct IH as [-> ->]. done.
Qed.

Lemma nothing_changes_without_begin_witness :
  let ops := [Put "A"%string (PyInt 5); Get "A"%string; Commit; Rollback;
              Put "A"%string PyNone] in
  transaction_state db_A6 = None ∧ Forall (λ o, o ≠ Begin) ops ∧
  (run in_memory_db_py ops db_A6).2 = db_A6 ∧
  (run in_memory_db_py ops db_A6).1
    = [inl NoTransactionError; (get "A"%string db_A6).1;
       inl NoTransactionError; inl NoTransactionError; inl ValueError].
Proof.
  intros ops.
  assert (Hops : Forall (λ o, o ≠ Begin) ops) by (repeat constructor; discriminate).
  destruct (nothing_changes_without_begin in_memory_db_py db_A6 ops
              eq_refl Hops) as [Hdb Hres].
  split_and!; [done|done|exact Hdb|exact Hres].
Defined.



(** ** The unit tests, for any keys and values *)





(** X12 ([test_single_transaction_enforcement], any instance).  From any
    well-formed instance with no transaction open, a second
    [begin_transaction()] raises while the first transaction stays open,
    so that the [rollback()] that follows succeeds and leaves the committed
    mapping as it was and no transaction open. *)
Theorem test_single_transaction_enforcement_general f db :
  wf db → transaction_state db = None →
  (run f [Begin; Begin; Rollback] db).1
    = [inr PyNone; inl Exception; inr PyNone] ∧
  transaction_state (run f [Begin; Begin] db).2 ≠ None ∧
  transaction_state (run f [Begin; Begin; Rollback] db).2 = None ∧
  committed (run f [Begin; Begin; Rollback] db).2 = committed db.
Proof.
  intros Hwf Hts.
  assert (Hopen : transaction_state (run f [Begin; Begin] db).2 ≠ None).
  { rewrite run_two, !call_transaction_state, Hts. done. }
  destruct (run_view f [Begin; Begin; Rollback] db Hwf) as (Hr & Hv & _).
  rewrite (view_idle db Hts) in Hr, Hv.
  set (out := run f [Begin; Begin; Rollback] db) in *. clearbody out.
  simpl in Hr, Hv. unfold view in Hv. injection Hv as Hc Hs.
  split_and!; [exact Hr|exact Hopen| |exact Hc].
  unfold staged in Hs. by destruct (transaction_state out.2).
Qed.

Lemma test_single_transaction_enforcement_general_witness :
  wf db_A6 ∧ transaction_state db_A6 = None ∧
  (run in_memory_db_py [Begin; Begin; Rollback] db_A6).1
    = [inr PyNone; inl Exception; inr PyNone] ∧
  committed (run in_memory_db_py [Begin; Begin; Rollback] db_A6).2
    = committed db_A6.
Proof.
  assert (Hwf : wf db_A6) by (split; [simpl; lia|done]).
  destruct (test_single_transaction_enforcement_general in_memory_db_py db_A6
              Hwf eq_refl) as (Hr & _ & _ & Hc).
  split_and!; [done|done|exact Hr|exact Hc].
Defined.



(** ** The diagnostics *)

Section Diagnostics.

Local Open Scope string_scope.

(** What the first calls of the demonstration at the end of
    [src/in_memory_db.py] print. *)
Example demo_transcript f :
  (Logged.run f [Get "A"; Put "A" (PyInt 5); Begin; Put "A" (PyInt 5);
                 Get "A"; Put "A" (PyInt 6); Commit; Get "A"; Commit]
     (init, [])).2.2
  = ["Get 'A': None (not found in main state)";
     "--- Transaction started ---";
     "Set 'A' to 5 (uncommitted)";
     "Get 'A': 5 (from transaction state)";
     "Set 'A' to 6 (uncommitted)";
     "--- Transaction committed successfully ---";
     "Get 'A': 6 (from main state)"].
Proof. by destruct f; vm_compute. Qed.

End Diagnostics.

Section LoggedCalls.

Implicit Types (db : InMemoryDB) (out lines : list string).




End LoggedCalls.




(** ** What holds for values of any length *)








